(** * The [azure:pipeline:permit] scaffolder action

    A shallow embedding of [src/actions/run/permitAzurePipeline.ts] and the
    properties of its handler: which request it sends, which token it uses,
    when it fails and what it logs.

    JavaScript strings are modelled as [string], read as the UTF-8 bytes of
    a well-formed string: template literals are concatenation, and
    [Buffer.from(s)] (whose default encoding is utf8) is the byte list of
    the string itself. *)

From Stdlib Require Import ZArith NArith List String Ascii Bool Lia.
From Stdlib Require Import DecimalString DecimalPos.
Import ListNotations.

Local Open Scope string_scope.
Local Open Scope Z_scope.

(** ** JavaScript values used by the handler *)

(** An input field that may be left out.  [??] falls through on both
    [undefined] and [null]; [=== undefined] only recognises the first. *)
Inductive optional (A : Type) : Type :=
| undefined : optional A
| null : optional A
| defined : A -> optional A.
Arguments undefined {A}.
Arguments null {A}.
Arguments defined {A} _.

(** [a ?? b] *)
Definition nullish {A : Type} (a : optional A) (b : A) : A :=
  match a with
  | defined v => v
  | _ => b
  end.

(** [a === undefined] *)
Definition is_undefined {A : Type} (a : optional A) : bool :=
  match a with
  | undefined => true
  | _ => false
  end.

(** The Number values that [parseInt] can return and that a status code can
    be: NaN, the infinities, and the integer-valued doubles.  [-0] is kept
    as [Finite 0]: it prints as [0], the only way a number is observed
    here. *)
Inductive Number : Type :=
| NaN : Number
| Infinity : bool -> Number   (* [true] is the negative one *)
| Finite : Z -> Number.

Module Double.

(** Round a positive integer to the nearest binary64 value, ties to even.
    The result is the integer the double stands for; [None] is overflow. *)
Definition round_pos (m : Z) : option Z :=
  let bits := Z.log2 m + 1 in
  if bits <=? 53 then Some m
  else
    let sh := bits - 53 in
    let q := Z.shiftr m sh in
    let r := m - Z.shiftl q sh in
    let half := Z.shiftl 1 (sh - 1) in
    let q' := if (half <? r) || ((r =? half) && Z.odd q) then q + 1 else q in
    let v := Z.shiftl q' sh in
    if Z.shiftl 1 1024 <=? v then None else Some v.

(** The Number value of a mathematical integer. *)
Definition of_Z (z : Z) : Number :=
  match z with
  | Z0 => Finite 0
  | Zpos _ => match round_pos z with
              | Some v => Finite v
              | None => Infinity false
              end
  | Zneg _ => match round_pos (- z) with
              | Some v => Finite (- v)
              | None => Infinity true
              end
  end.

(** Number of decimal digits of a positive integer. *)
Definition ndigits (v : Z) : Z :=
  Z.of_nat (Decimal.nb_digits (N.to_uint (Z.to_N v))).

Definition rounds_to (v w : Z) : bool :=
  match round_pos w with
  | Some v' => v' =? v
  | None => false
  end.

(** The candidate with [k] significant digits that reads back as [v],
    nearest to [v] when both neighbours do. *)
Definition candidate (v k : Z) : option Z :=
  let e := ndigits v - k in
  let p := 10 ^ e in
  let lo := (v / p) * p in
  let hi := lo + p in
  let lo_ok := (0 <? lo) && rounds_to v lo in
  let hi_ok := rounds_to v hi in
  if lo_ok && hi_ok then
    (if v - lo <? hi - v then Some lo
     else if hi - v <? v - lo then Some hi
     else if Z.even (v / p) then Some lo else Some hi)
  else if lo_ok then Some lo
  else if hi_ok then Some hi
  else None.

(** Try [k], [k+1], ... significant digits. *)
Fixpoint search (fuel : nat) (v k : Z) : Z :=
  match fuel with
  | O => v
  | S fuel' =>
      if ndigits v <=? k then v
      else match candidate v k with
           | Some w => w
           | None => search fuel' v (k + 1)
           end
  end.

(** The shortest decimal integer that reads back as the double [v]
    (the value [s * 10^(n-k)] of Number::toString). *)
Definition shortest (v : Z) : Z := search 18 v 1.

End Double.

(** ** Built-ins the handler calls *)

(** Decimal notation of an integer. *)
Definition decimal (z : Z) : string := NilZero.string_of_int (Z.to_int z).

(** Drop the zeros a digit string ends with. *)
Fixpoint strip_trailing_zeros (s : string) : string :=
  match s with
  | EmptyString => EmptyString
  | String c s' =>
      match strip_trailing_zeros s' with
      | EmptyString => if Ascii.eqb c "0" then EmptyString else String c EmptyString
      | r => String c r
      end
  end.

(** Number::toString, radix 10, for a positive integer-valued double:
    with [n] the number of digits of the shortest decimal [w], plain digits
    when [n <= 21], that is [w < 10^21], and exponent notation above. *)
Definition toString_pos (v : Z) : string :=
  let w := Double.shortest v in
  let n := Double.ndigits w in
  if w <? 10 ^ 21 then decimal w
  else
    match strip_trailing_zeros (decimal w) with
    | String d EmptyString => String d ("e+" ++ decimal (n - 1))
    | String d ds => String d ("." ++ ds ++ "e+" ++ decimal (n - 1))
    | EmptyString => EmptyString
    end.

(** Number::toString: what a template literal or [String(x)] shows. *)
Definition Number_toString (x : Number) : string :=
  match x with
  | NaN => "NaN"
  | Infinity false => "Infinity"
  | Infinity true => "-Infinity"
  | Finite Z0 => "0"
  | Finite (Zpos p) => toString_pos (Zpos p)
  | Finite (Zneg p) => "-" ++ toString_pos (Zpos p)
  end.

Module ParseInt.

(** Leading StrWhiteSpaceChar characters (WhiteSpace and LineTerminator),
    recognised on the UTF-8 bytes: TAB LF VT FF CR SP, U+00A0, U+1680,
    U+2000..U+200A, U+2028, U+2029, U+202F, U+205F, U+3000, U+FEFF. *)
Definition ascii_space (c : ascii) : bool :=
  let n := N_of_ascii c in
  ((9 <=? n) && (n <=? 13) || (n =? 32))%N.

Fixpoint trim_start (s : string) : string :=
  match s with
  | String c s1 =>
      if ascii_space c then trim_start s1
      else
        match N_of_ascii c, s1 with
        | 194%N, String c2 s2 =>
            if (N_of_ascii c2 =? 160)%N then trim_start s2 else s
        | 225%N, String c2 (String c3 s3) =>
            if ((N_of_ascii c2 =? 154) && (N_of_ascii c3 =? 128))%N
            then trim_start s3 else s
        | 226%N, String c2 (String c3 s3) =>
            let b2 := N_of_ascii c2 in
            let b3 := N_of_ascii c3 in
            if ((b2 =? 128) &&
                ((128 <=? b3) && (b3 <=? 138) || (b3 =? 168) || (b3 =? 169)
                 || (b3 =? 175))
                || (b2 =? 129) && (b3 =? 159))%N
            then trim_start s3 else s
        | 227%N, String c2 (String c3 s3) =>
            if ((N_of_ascii c2 =? 128) && (N_of_ascii c3 =? 128))%N
            then trim_start s3 else s
        | 239%N, String c2 (String c3 s3) =>
            if ((N_of_ascii c2 =? 187) && (N_of_ascii c3 =? 191))%N
            then trim_start s3 else s
        | _, _ => s
        end
  | EmptyString => EmptyString
  end.

(** The value of a radix-10 digit. *)
Definition digit (c : ascii) : option Z :=
  let n := N_of_ascii c in
  if ((48 <=? n) && (n <=? 57))%N then Some (Z.of_N n - 48) else None.

(** The longest prefix of digits, read as a number in radix 10; [None]
    when the prefix is empty. *)
Fixpoint digits (acc : option Z) (s : string) : option Z :=
  match s with
  | String c s' =>
      match digit c with
      | Some d => digits (Some (10 * match acc with Some a => a | None => 0 end + d)) s'
      | None => acc
      end
  | EmptyString => acc
  end.

(** [parseInt(s, 10)] *)
Definition parseInt (s : string) : Number :=
  let trimmed := trim_start s in
  let '(sign, body) :=
    match trimmed with
    | String "-" rest => (-1, rest)
    | String "+" rest => (1, rest)
    | _ => (1, trimmed)
    end in
  match digits None body with
  | None => NaN
  | Some mathInt => Double.of_Z (sign * mathInt)
  end.

End ParseInt.
Export ParseInt (parseInt).

(** *** JSON.stringify *)

#[warnings="-register-all"] Inductive JSON : Type :=
| JBoolean : bool -> JSON
| JNumber : Number -> JSON
| JArray : list JSON -> JSON
| JObject : list (string * JSON) -> JSON.

(** Keys are written between double quotes; the quote, the backslash and
    the control characters are escaped. *)
Definition hex_digit (n : N) : ascii :=
  ascii_of_N (if (n <? 10)%N then 48 + n else 87 + n).

Definition dquote : ascii := ascii_of_N 34.

Fixpoint QuoteJSONString_body (s : string) : string :=
  match s with
  | EmptyString => EmptyString
  | String c s' =>
      let n := N_of_ascii c in
      let rest := QuoteJSONString_body s' in
      if (n =? 34)%N then String "\" (String dquote rest)
      else if (n =? 92)%N then String "\" (String "\" rest)
      else if (n =? 8)%N then String "\" (String "b" rest)
      else if (n =? 9)%N then String "\" (String "t" rest)
      else if (n =? 10)%N then String "\" (String "n" rest)
      else if (n =? 12)%N then String "\" (String "f" rest)
      else if (n =? 13)%N then String "\" (String "r" rest)
      else if (n <? 32)%N then
        "\u00" ++ String (hex_digit (n / 16)) (String (hex_digit (n mod 16)) rest)
      else String c rest
  end.

Definition QuoteJSONString (s : string) : string :=
  String dquote (QuoteJSONString_body s ++ String dquote EmptyString).

Definition join_comma (l : list string) : string :=
  match l with
  | [] => EmptyString
  | x :: xs => fold_left (fun acc y => acc ++ "," ++ y) xs x
  end.

Fixpoint JSON_stringify (v : JSON) : string :=
  match v with
  | JBoolean true => "true"
  | JBoolean false => "false"
  | JNumber (Finite z) => Number_toString (Finite z)
  | JNumber _ => "null"
  | JArray l => "[" ++ join_comma (map JSON_stringify l) ++ "]"
  | JObject l =>
      "{" ++ join_comma
               (map (fun kv => QuoteJSONString (fst kv) ++ ":" ++ JSON_stringify (snd kv)) l)
          ++ "}"
  end.

(** *** Buffer.from(s).toString("base64") *)

Module Base64.

Definition alphabet : string :=
  "ABCDEFGHIJKLMNOPQRSTUVWXYZabcdefghijklmnopqrstuvwxyz0123456789+/".

(** The character of the low six bits of [n]. *)
Definition sextet (n : N) : ascii :=
  match String.get (N.to_nat (n mod 64)) alphabet with
  | Some c => c
  | None => "="%char
  end.

(** Three bytes are read as a 24-bit number and written as four 6-bit
    characters; a last group of one or two bytes is padded with [=]. *)
Fixpoint encode (bytes : string) : string :=
  match bytes with
  | String a (String b (String c rest)) =>
      let n := (N_of_ascii a * 65536 + N_of_ascii b * 256 + N_of_ascii c)%N in
      String (sextet (n / 262144)) (String (sextet (n / 4096))
        (String (sextet (n / 64)) (String (sextet n) (encode rest))))
  | String a (String b EmptyString) =>
      let n := (N_of_ascii a * 65536 + N_of_ascii b * 256)%N in
      String (sextet (n / 262144)) (String (sextet (n / 4096))
        (String (sextet (n / 64)) "="))
  | String a EmptyString =>
      let n := (N_of_ascii a * 65536)%N in
      String (sextet (n / 262144)) (String (sextet (n / 4096)) "==")
  | EmptyString => EmptyString
  end.





End Base64.

(** [String.prototype.startsWith] *)
Fixpoint startsWith (s pre : string) {struct pre} : bool :=
  match pre with
  | EmptyString => true
  | String a pre' =>
      match s with
      | String b s' => Ascii.eqb a b && startsWith s' pre'
      | EmptyString => false
      end
  end.

(** [String.prototype.includes] *)
Fixpoint includes (s sub : string) : bool :=
  startsWith s sub ||
  match s with
  | String _ s' => includes s' sub
  | EmptyString => false
  end.

(** ** The collaborators of the action *)

Module ScmIntegration.
Record t : Type := { type : string; title : string }.
End ScmIntegration.

Module AzureDevOpsCredential.
Inductive kind : Type := bearer | pat.
Record t : Type := { token : string; type : kind }.
End AzureDevOpsCredential.

Record ScmIntegrationRegistry : Type :=
  { byHost : string -> option ScmIntegration.t }.

Record AzureDevOpsCredentialsProvider : Type :=
  { getCredentials : string -> option AzureDevOpsCredential.t }.

Module Request.
Record t : Type :=
  { url : string;
    method : string;
    headers : list (string * string);
    body : string }.

(** The value of a header of the [headers] object literal. *)
Fixpoint header (name : string) (hs : list (string * string)) : option string :=
  match hs with
  | [] => None
  | (k, v) :: hs' => if String.eqb k name then Some v else header name hs'
  end.
End Request.

Module Response.
Record t : Type := { ok : bool; status : N }.
End Response.

(** What the handler reads from [ctx.input]. *)
Module Input.
Record t : Type :=
  { permitsApiVersion : optional string;
    server : optional string;
    organization : string;
    project : string;
    resourceId : string;
    resourceType : string;
    authorized : bool;
    pipelineId : string;
    token : optional string }.
End Input.

(** ** Effects: the log, the calls that leave the process, exceptions *)

Inductive Error : Type :=
| InputError : string -> Error
| TypeError : string -> Error
| FetchError : string -> Error.

Inductive Event : Type :=
| LoggerInfo : string -> Event
| LoggerError : string -> Event
| GetCredentials : string -> Event
| Fetch : Request.t -> Event.

(** A run of an async function: what it did, in order, and whether the
    promise was fulfilled or rejected. *)
Record Run (A : Type) : Type :=
  { trace : list Event; result : Error + A }.
Arguments trace {A} _.
Arguments result {A} _.

Definition ret {A : Type} (a : A) : Run A :=
  {| trace := []; result := inr a |}.

Definition throw {A : Type} (e : Error) : Run A :=
  {| trace := []; result := inl e |}.

Definition bind {A B : Type} (m : Run A) (k : A -> Run B) : Run B :=
  match result m with
  | inl e => {| trace := trace m; result := inl e |}
  | inr a => {| trace := trace m ++ trace (k a); result := result (k a) |}
  end.

Definition emit (ev : Event) : Run unit :=
  {| trace := [ev]; result := inr tt |}.

Notation "x <- m ;; k" := (bind m (fun x => k))
  (at level 61, m at next level, right associativity).
Notation "m ;;; k" := (bind m (fun _ => k))
  (at level 61, right associativity).

(** The requests a run sent. *)
Fixpoint requests (tr : list Event) : list Request.t :=
  match tr with
  | [] => []
  | Fetch r :: tr' => r :: requests tr'
  | _ :: tr' => requests tr'
  end.

(** [!type] for an optional string: undefined and the empty string. *)
Definition falsy (v : option string) : bool :=
  match v with
  | None => true
  | Some EmptyString => true
  | Some _ => false
  end.

(** How [fetch] rejects: a FetchError for a failure of the network, a
    TypeError for a request it cannot send.  It never rejects with an
    InputError, which is the scaffolder's own. *)
Inductive FetchFailure : Type :=
| SystemFailure : string -> FetchFailure
| InvalidRequest : string -> FetchFailure.

Definition rejection (f : FetchFailure) : Error :=
  match f with
  | SystemFailure m => FetchError m
  | InvalidRequest m => TypeError m
  end.

(** What [fetch] settles with. *)
Definition FetchResult : Type := (FetchFailure + Response.t)%type.

Section Action.

(** [options.integrations], the credentials provider built from it, and
    the transport.  The provider is taken to answer: it resolves a
    credential or [undefined], and does not reject. *)
Variable integrations : ScmIntegrationRegistry.
Variable fromIntegrations : ScmIntegrationRegistry -> AzureDevOpsCredentialsProvider.
Variable fetch : Request.t -> FetchResult.

Definition await_getCredentials (p : AzureDevOpsCredentialsProvider) (url : string)
  : Run (option AzureDevOpsCredential.t) :=
  emit (GetCredentials url) ;;; ret (getCredentials p url).

Definition await_fetch (r : Request.t) : Run Response.t :=
  emit (Fetch r) ;;;
  match fetch r with
  | inl f => throw (rejection f)
  | inr response => ret response
  end.

Definition logger_info (s : string) : Run unit := emit (LoggerInfo s).
Definition logger_error (s : string) : Run unit := emit (LoggerError s).

Definition handler (input : Input.t) : Run unit :=
  let permitsApiVersion := Input.permitsApiVersion input in
  let server := Input.server input in
  let organization := Input.organization input in
  let project := Input.project input in
  let resourceId := Input.resourceId input in
  let resourceType := Input.resourceType input in
  let authorized := Input.authorized input in
  let pipelineId := Input.pipelineId input in
  let host := nullish server "dev.azure.com" in
  let apiVersion := nullish permitsApiVersion "7.1-preview.1" in
  let type := option_map ScmIntegration.type (byHost integrations host) in
  if falsy type
  then throw (InputError ("No matching integration configuration for host " ++ host
                            ++ ", please check your integrations config"))
  else
    let url := "https://" ++ host ++ "/" ++ organization in
    let credentialProvider := fromIntegrations integrations in
    credentials <- await_getCredentials credentialProvider url ;;
    if match credentials with None => true | Some _ => false end
       && is_undefined (Input.token input)
    then throw (InputError ("No credentials provided " ++ url
                              ++ ", please check your integrations config"))
    else
      token <- match Input.token input with
               | defined t => ret t
               | _ =>
                   match credentials with
                   | Some c => ret (AzureDevOpsCredential.token c)
                   | None =>
                       throw (TypeError
                         "Cannot read properties of undefined (reading 'token')")
                   end
               end ;;
      (if authorized
       then logger_info ("Authorizing Azure pipeline with ID " ++ pipelineId ++ " for "
                           ++ resourceType ++ " with ID " ++ resourceId ++ ".")
       else logger_info ("Unauthorizing Azure pipeline with ID " ++ pipelineId ++ " for "
                           ++ resourceType ++ " with ID " ++ resourceId ++ ".")) ;;;
      response <- await_fetch
        {| Request.url :=
             "https://" ++ host ++ "/" ++ organization ++ "/" ++ project
               ++ "/_apis/pipelines/pipelinepermissions/" ++ resourceType ++ "/"
               ++ resourceId ++ "?api-version=" ++ apiVersion;
           Request.method := "PATCH";
           Request.headers :=
             [ ("Content-Type", "application/json");
               ("Accept", "application/json");
               ("Authorization", "Basic " ++ Base64.encode ("PAT:" ++ token));
               ("X-TFS-FedAuthRedirect", "Suppress") ];
           Request.body :=
             JSON_stringify
               (JObject [ ("pipelines",
                           JArray [ JObject [ ("authorized", JBoolean authorized);
                                              ("id", JNumber (parseInt pipelineId)) ] ]) ])
        |} ;;
      if Response.ok response
      then logger_info "Successfully changed the Azure pipeline permissions."
      else logger_error ("Failed to change the Azure pipeline permissions. Status code "
                           ++ Number_toString (Double.of_Z (Z.of_N (Response.status response)))
                           ++ ".").

End Action.

(** ** The runs of the handler *)

Section Runs.

Variable integrations : ScmIntegrationRegistry.
Variable fromIntegrations : ScmIntegrationRegistry -> AzureDevOpsCredentialsProvider.
Variable fetch : Request.t -> FetchResult.

Definition resolved_host (input : Input.t) : string :=
  nullish (Input.server input) "dev.azure.com".

Definition resolved_apiVersion (input : Input.t) : string :=
  nullish (Input.permitsApiVersion input) "7.1-preview.1".

Definition base_url (input : Input.t) : string :=
  "https://" ++ resolved_host input ++ "/" ++ Input.organization input.

Definition integration_type (input : Input.t) : option string :=
  option_map ScmIntegration.type (byHost integrations (resolved_host input)).

Definition credentials (input : Input.t) : option AzureDevOpsCredential.t :=
  getCredentials (fromIntegrations integrations) (base_url input).

(** The token the request is signed with, when there is one. *)
Definition auth_token (input : Input.t) : option string :=
  match Input.token input with
  | defined t => Some t
  | _ => option_map AzureDevOpsCredential.token (credentials input)
  end.

Definition intent (input : Input.t) : Event :=
  LoggerInfo ((if Input.authorized input then "Authorizing" else "Unauthorizing")
                ++ " Azure pipeline with ID " ++ Input.pipelineId input ++ " for "
                ++ Input.resourceType input ++ " with ID " ++ Input.resourceId input
                ++ ".").

Definition permit_request (input : Input.t) (token : string) : Request.t :=
  {| Request.url :=
       "https://" ++ resolved_host input ++ "/" ++ Input.organization input ++ "/"
         ++ Input.project input ++ "/_apis/pipelines/pipelinepermissions/"
         ++ Input.resourceType input ++ "/" ++ Input.resourceId input
         ++ "?api-version=" ++ resolved_apiVersion input;
     Request.method := "PATCH";
     Request.headers :=
       [ ("Content-Type", "application/json");
         ("Accept", "application/json");
         ("Authorization", "Basic " ++ Base64.encode ("PAT:" ++ token));
         ("X-TFS-FedAuthRedirect", "Suppress") ];
     Request.body :=
       JSON_stringify
         (JObject [ ("pipelines",
                     JArray [ JObject [ ("authorized", JBoolean (Input.authorized input));
                                        ("id", JNumber (parseInt (Input.pipelineId input))) ] ]) ])
  |}.

Definition report (response : Response.t) : Event :=
  if Response.ok response
  then LoggerInfo "Successfully changed the Azure pipeline permissions."
  else LoggerError ("Failed to change the Azure pipeline permissions. Status code "
                      ++ Number_toString (Double.of_Z (Z.of_N (Response.status response)))
                      ++ ".").

(** The five ways a run can go. *)
Inductive outcome (input : Input.t) : Run unit -> Prop :=
| NoIntegration :
    falsy (integration_type input) = true ->
    outcome input
      {| trace := [];
         result := inl (InputError
           ("No matching integration configuration for host " ++ resolved_host input
              ++ ", please check your integrations config")) |}
| NoCredentials :
    falsy (integration_type input) = false ->
    credentials input = None ->
    Input.token input = undefined ->
    outcome input
      {| trace := [GetCredentials (base_url input)];
         result := inl (InputError
           ("No credentials provided " ++ base_url input
              ++ ", please check your integrations config")) |}
| NullToken :
    falsy (integration_type input) = false ->
    credentials input = None ->
    Input.token input = null ->
    outcome input
      {| trace := [GetCredentials (base_url input)];
         result := inl (TypeError
           "Cannot read properties of undefined (reading 'token')") |}
| Rejected : forall token f,
    falsy (integration_type input) = false ->
    auth_token input = Some token ->
    fetch (permit_request input token) = inl f ->
    outcome input
      {| trace := [GetCredentials (base_url input); intent input;
                   Fetch (permit_request input token)];
         result := inl (rejection f) |}
| Responded : forall token response,
    falsy (integration_type input) = false ->
    auth_token input = Some token ->
    fetch (permit_request input token) = inr response ->
    outcome input
      {| trace := [GetCredentials (base_url input); intent input;
                   Fetch (permit_request input token); report response];
         result := inr tt |}.

End Runs.

(** ** The request body *)

Definition quoted (s : string) : string :=
  String dquote (s ++ String dquote EmptyString).

(** The text [{"pipelines":[{"authorized":a,"id":i}]}]. *)
Definition pipelines_body (a i : string) : string :=
  "{" ++ quoted "pipelines" ++ ":[{" ++ quoted "authorized" ++ ":" ++ a ++ ","
      ++ quoted "id" ++ ":" ++ i ++ "}]}".

(** ** Numbers that print as written *)

Definition two53 : Z := 2 ^ 53.

(** The value of a digit list read left to right from [a]. *)
Fixpoint uint_value (a : Z) (u : Decimal.uint) : Z :=
  match u with
  | Decimal.Nil => a
  | Decimal.D0 l => uint_value (10 * a) l
  | Decimal.D1 l => uint_value (10 * a + 1) l
  | Decimal.D2 l => uint_value (10 * a + 2) l
  | Decimal.D3 l => uint_value (10 * a + 3) l
  | Decimal.D4 l => uint_value (10 * a + 4) l
  | Decimal.D5 l => uint_value (10 * a + 5) l
  | Decimal.D6 l => uint_value (10 * a + 6) l
  | Decimal.D7 l => uint_value (10 * a + 7) l
  | Decimal.D8 l => uint_value (10 * a + 8) l
  | Decimal.D9 l => uint_value (10 * a + 9) l
  end.

(** ** An installation to run the action on *)

Module Sample.

Definition azure : ScmIntegration.t :=
  {| ScmIntegration.type := "azure"; ScmIntegration.title := "dev.azure.com" |}.

(** Only [dev.azure.com] is configured. *)
Definition integrations : ScmIntegrationRegistry :=
  {| byHost := fun host => if String.eqb host "dev.azure.com" then Some azure else None |}.

(** Every host is configured. *)
Definition any_host : ScmIntegrationRegistry :=
  {| byHost := fun _ => Some azure |}.

Definition with_credential (_ : ScmIntegrationRegistry) : AzureDevOpsCredentialsProvider :=
  {| getCredentials := fun _ =>
       Some {| AzureDevOpsCredential.token := "from-provider";
               AzureDevOpsCredential.type := AzureDevOpsCredential.pat |} |}.

Definition without_credential (_ : ScmIntegrationRegistry)
  : AzureDevOpsCredentialsProvider :=
  {| getCredentials := fun _ => None |}.

Definition responds (status : N) (_ : Request.t) : FetchResult :=
  inr {| Response.ok := ((200 <=? status) && (status <? 300))%N;
         Response.status := status |}.

Definition input : Input.t :=
  {| Input.permitsApiVersion := undefined;
     Input.server := undefined;
     Input.organization := "org";
     Input.project := "proj";
     Input.resourceId := "1234";
     Input.resourceType := "endpoint";
     Input.authorized := true;
     Input.pipelineId := "42";
     Input.token := defined "secret" |}.

Definition with_token (t : optional string) (i : Input.t) : Input.t :=
  {| Input.permitsApiVersion := Input.permitsApiVersion i;
     Input.server := Input.server i;
     Input.organization := Input.organization i;
     Input.project := Input.project i;
     Input.resourceId := Input.resourceId i;
     Input.resourceType := Input.resourceType i;
     Input.authorized := Input.authorized i;
     Input.pipelineId := Input.pipelineId i;
     Input.token := t |}.

Definition with_pipelineId (p : string) (i : Input.t) : Input.t :=
  {| Input.permitsApiVersion := Input.permitsApiVersion i;
     Input.server := Input.server i;
     Input.organization := Input.organization i;
     Input.project := Input.project i;
     Input.resourceId := Input.resourceId i;
     Input.resourceType := Input.resourceType i;
     Input.authorized := Input.authorized i;
     Input.pipelineId := p;
     Input.token := Input.token i |}.

Definition with_server (s v : optional string) (i : Input.t) : Input.t :=
  {| Input.permitsApiVersion := v;
     Input.server := s;
     Input.organization := Input.organization i;
     Input.project := Input.project i;
     Input.resourceId := Input.resourceId i;
     Input.resourceType := Input.resourceType i;
     Input.authorized := Input.authorized i;
     Input.pipelineId := Input.pipelineId i;
     Input.token := Input.token i |}.

(** The request the sample input leads to. *)
Definition request : Request.t :=
  {| Request.url :=
       "https://dev.azure.com/org/proj/_apis/pipelines/pipelinepermissions/endpoint/1234?api-version=7.1-preview.1";
     Request.method := "PATCH";
     Request.headers :=
       [ ("Content-Type", "application/json");
         ("Accept", "application/json");
         ("Authorization", "Basic UEFUOnNlY3JldA==");
         ("X-TFS-FedAuthRedirect", "Suppress") ];
     Request.body := pipelines_body "true" "42" |}.

End Sample.

(** ** What a trace shows *)

(** The lines a run logged, in order. *)
Fixpoint logged (tr : list Event) : list Event :=
  match tr with
  | [] => []
  | LoggerInfo s :: tr' => LoggerInfo s :: logged tr'
  | LoggerError s :: tr' => LoggerError s :: logged tr'
  | _ :: tr' => logged tr'
  end.

(** The URLs a run asked the credentials provider about. *)
Fixpoint lookups (tr : list Event) : list string :=
  match tr with
  | [] => []
  | GetCredentials url :: tr' => url :: lookups tr'
  | _ :: tr' => lookups tr'
  end.


(** ** More of the sample installation *)

Module Cases.

(** A transport that cannot connect. *)
Definition refuses (_ : Request.t) : FetchResult :=
  inl (SystemFailure "connect ECONNREFUSED").

(** A provider whose credential is a bearer token. *)
Definition with_bearer (_ : ScmIntegrationRegistry) : AzureDevOpsCredentialsProvider :=
  {| getCredentials := fun _ =>
       Some {| AzureDevOpsCredential.token := "from-provider";
               AzureDevOpsCredential.type := AzureDevOpsCredential.bearer |} |}.


End Cases.

(** * Properties *)

(** ** Strings *)

Lemma startsWith_app (s t : string) : startsWith (s ++ t) s = true.
Proof.
  induction s as [|c s IH]; simpl.
  - reflexivity.
  - now rewrite Ascii.eqb_refl.
Qed.

Lemma startsWith_spec (s pre : string) :
  startsWith s pre = true <-> exists post, s = pre ++ post.
Proof.
  split.
  - revert s. induction pre as [|a pre IH]; intros s H.
    + now exists s.
    + destruct s as [|b s]; [discriminate|]. simpl in H.
      apply andb_true_iff in H. destruct H as [Hab H].
      apply Ascii.eqb_eq in Hab. subst b.
      destruct (IH _ H) as [post ->]. now exists post.
  - intros [post ->]. apply startsWith_app.
Qed.

Lemma includes_unfold (s sub : string) :
  includes s sub =
  startsWith s sub ||
  match s with String _ s' => includes s' sub | EmptyString => false end.
Proof. destruct s; reflexivity. Qed.

Lemma includes_here (s sub : string) :
  startsWith s sub = true -> includes s sub = true.
Proof. intros H. rewrite includes_unfold, H. reflexivity. Qed.

Lemma includes_cons (c : ascii) (s sub : string) :
  includes s sub = true -> includes (String c s) sub = true.
Proof. intros H. rewrite includes_unfold, H. apply orb_true_r. Qed.

Lemma includes_app_r (s t sub : string) :
  includes t sub = true -> includes (s ++ t) sub = true.
Proof.
  intros H. induction s as [|c s IH]; simpl append.
  - exact H.
  - apply includes_cons, IH.
Qed.

Lemma includes_app (pre sub post : string) :
  includes (pre ++ sub ++ post) sub = true.
Proof. apply includes_app_r, includes_here, startsWith_app. Qed.

(** [includes] is the substring relation. *)
Lemma includes_spec (s sub : string) :
  includes s sub = true <-> exists pre post, s = pre ++ sub ++ post.
Proof.
  split.
  - induction s as [|c s IH]; rewrite includes_unfold; intros H;
      apply orb_true_iff in H; destruct H as [H|H].
    + apply startsWith_spec in H. destruct H as [post E]. now exists EmptyString, post.
    + discriminate.
    + apply startsWith_spec in H. destruct H as [post E]. now exists EmptyString, post.
    + destruct (IH H) as (pre & post & ->). now exists (String c pre), post.
  - intros (pre & post & ->). apply includes_app.
Qed.

(** Searching a string that starts with known characters. *)
Ltac find_substring :=
  cbn [append];
  repeat first
    [ solve [ apply includes_here; first [ reflexivity | apply startsWith_app ] ]
    | match goal with
      | |- includes (String _ _) _ = true => apply includes_cons
      | |- includes (_ ++ _) _ = true => apply includes_app_r
      end ].

(** ** Numbers *)

Lemma round_pos_small (m : Z) :
  0 <= m < two53 -> Double.round_pos m = Some m.
Proof.
  intros [H0 H]. unfold Double.round_pos.
  assert (Hb : Z.log2 m + 1 <= 53).
  { destruct (Z.eq_dec m 0) as [->|Hn]; [simpl; lia|].
    assert (Z.log2 m < 53) by (apply Z.log2_lt_pow2; [lia | exact H]). lia. }
  apply Z.leb_le in Hb. now rewrite Hb.
Qed.

Lemma round_pos_large (m v : Z) :
  two53 <= m -> Double.round_pos m = Some v -> two53 <= v.
Proof.
  intros Hm. unfold Double.round_pos.
  assert (Hpos : 0 < m) by (unfold two53 in Hm; lia).
  assert (Hl : 53 <= Z.log2 m) by (apply Z.log2_le_pow2; [lia | exact Hm]).
  destruct (Z.leb_spec (Z.log2 m + 1) 53) as [|_]; [lia|].
  set (sh := Z.log2 m + 1 - 53).
  assert (Hsh : 1 <= sh) by (unfold sh; lia).
  set (q := Z.shiftr m sh).
  assert (Hq : 2 ^ 52 <= q).
  { unfold q. rewrite Z.shiftr_div_pow2 by lia.
    apply Z.div_le_lower_bound; [apply Z.pow_pos_nonneg; lia|].
    rewrite <- Z.pow_add_r by lia.
    replace (sh + 52) with (Z.log2 m) by (unfold sh; lia).
    apply Z.log2_spec. exact Hpos. }
  match goal with |- context [if ?c then q + 1 else q] =>
    set (q' := if c then q + 1 else q) end.
  assert (Hq' : 2 ^ 52 <= q') by (unfold q'; destruct (_ || _); lia).
  destruct (_ <=? _); [discriminate|]. intros [= <-].
  rewrite Z.shiftl_mul_pow2 by lia. unfold two53.
  change (2 ^ 53) with (2 ^ 52 * 2 ^ 1).
  apply Z.mul_le_mono_nonneg; try lia.
  apply Z.pow_le_mono_r; lia.
Qed.

Lemma rounds_to_small (v w : Z) :
  0 < v < two53 -> 0 <= w -> Double.rounds_to v w = true -> w = v.
Proof.
  intros Hv Hw. unfold Double.rounds_to.
  destruct (Z_lt_le_dec w two53) as [Hs|Hl].
  - rewrite round_pos_small by lia. intros H. apply Z.eqb_eq in H. exact H.
  - destruct (Double.round_pos w) as [v'|] eqn:E; [|discriminate].
    apply round_pos_large in E; [|exact Hl].
    intros H. apply Z.eqb_eq in H. lia.
Qed.

Lemma candidate_small (v k w : Z) :
  0 < v < two53 -> Double.candidate v k = Some w -> w = v.
Proof.
  intros Hv. unfold Double.candidate.
  set (p := 10 ^ (Double.ndigits v - k)).
  assert (Hp : 0 <= p) by (apply Z.pow_nonneg; lia).
  assert (Hlo : 0 <= v / p * p).
  { apply Z.mul_nonneg_nonneg; [|exact Hp].
    destruct (Z.eq_dec p 0) as [->|]; [now rewrite Z.div_0_r|].
    apply Z.div_pos; lia. }
  destruct ((0 <? v / p * p) && Double.rounds_to v (v / p * p)) eqn:Elo;
    destruct (Double.rounds_to v (v / p * p + p)) eqn:Ehi; cbn [andb].
  - apply andb_true_iff in Elo. destruct Elo as [_ Elo].
    apply rounds_to_small in Elo; [|lia..].
    apply rounds_to_small in Ehi; [|lia..].
    repeat destruct (_ <? _); try destruct (Z.even _); intros [= <-]; lia.
  - apply andb_true_iff in Elo. destruct Elo as [_ Elo].
    apply rounds_to_small in Elo; [|lia..]. intros [= <-]. exact Elo.
  - apply rounds_to_small in Ehi; [|lia..]. intros [= <-]. exact Ehi.
  - discriminate.
Qed.

Lemma search_small (fuel : nat) (v k : Z) :
  0 < v < two53 -> Double.search fuel v k = v.
Proof.
  intros Hv. revert k. induction fuel as [|fuel IH]; intros k; simpl.
  - reflexivity.
  - destruct (_ <=? _); [reflexivity|].
    destruct (Double.candidate v k) as [w|] eqn:E.
    + eapply candidate_small; eassumption.
    + apply IH.
Qed.

(** Below [2^53] a number prints as its decimal notation. *)
Lemma Number_toString_small (v : Z) :
  0 <= v < two53 -> Number_toString (Finite v) = decimal v.
Proof.
  intros Hv. destruct v as [|p|p]; [reflexivity| |lia].
  simpl. unfold toString_pos, Double.shortest.
  rewrite search_small by lia.
  destruct (Z.ltb_spec (Z.pos p) (10 ^ 21)) as [_|E]; [reflexivity|].
  assert (two53 < 10 ^ 21) by reflexivity. lia.
Qed.

(** *** [parseInt] reads decimal notation back *)

Lemma digits_string_of_uint (a : Z) (u : Decimal.uint) :
  ParseInt.digits (Some a) (NilEmpty.string_of_uint u) = Some (uint_value a u).
Proof.
  revert a. induction u; intros a; cbn -[Z.mul Z.add];
    rewrite ?IHu; try reflexivity.
  f_equal. f_equal. lia.
Qed.

Lemma digits_string_of_uint_start (u : Decimal.uint) :
  u <> Decimal.Nil ->
  ParseInt.digits None (NilEmpty.string_of_uint u) = Some (uint_value 0 u).
Proof.
  destruct u; intros Hu; [contradiction| ..];
    cbn -[Z.mul Z.add uint_value]; rewrite digits_string_of_uint; reflexivity.
Qed.

Lemma uint_value_of_uint_acc (u : Decimal.uint) (acc : positive) :
  uint_value (Z.pos acc) u = Z.pos (Pos.of_uint_acc u acc).
Proof.
  revert acc. induction u; intros acc; cbn [uint_value Pos.of_uint_acc];
    rewrite <- ?IHu; try reflexivity; f_equal; lia.
Qed.

Lemma uint_value_of_uint (u : Decimal.uint) :
  uint_value 0 u = Z.of_N (Pos.of_uint u).
Proof.
  induction u; cbn [uint_value Pos.of_uint]; try reflexivity;
    try (cbn [Z.mul Z.add Z.of_N]; apply uint_value_of_uint_acc).
  exact IHu.
Qed.

Lemma uint_value_to_uint (p : positive) : uint_value 0 (Pos.to_uint p) = Z.pos p.
Proof. rewrite uint_value_of_uint, DecimalPos.Unsigned.of_to. reflexivity. Qed.

(** A string of digits has no white space or sign to skip. *)
Lemma trim_start_digits (u : Decimal.uint) :
  ParseInt.trim_start (NilEmpty.string_of_uint u) = NilEmpty.string_of_uint u.
Proof. destruct u; reflexivity. Qed.

Lemma string_of_pos (p : positive) :
  NilZero.string_of_uint (Pos.to_uint p) = NilEmpty.string_of_uint (Pos.to_uint p).
Proof.
  unfold NilZero.string_of_uint.
  destruct (Pos.to_uint p) eqn:E; try reflexivity.
  now apply DecimalPos.Unsigned.to_uint_nonnil in E.
Qed.

Lemma parseInt_digits (u : Decimal.uint) :
  u <> Decimal.Nil ->
  parseInt (NilEmpty.string_of_uint u) = Double.of_Z (uint_value 0 u).
Proof.
  intros Hu. unfold parseInt. rewrite trim_start_digits.
  assert (E : match NilEmpty.string_of_uint u with
              | String "-" rest => (-1, rest)
              | String "+" rest => (1, rest)
              | _ => (1, NilEmpty.string_of_uint u)
              end = (1, NilEmpty.string_of_uint u)).
  { destruct u; try reflexivity. }
  rewrite E, digits_string_of_uint_start by exact Hu.
  f_equal. destruct (uint_value 0 u); reflexivity.
Qed.

(** [parseInt(String(n), 10)] is the Number of [n]. *)
Lemma parseInt_decimal (z : Z) : parseInt (decimal z) = Double.of_Z z.
Proof.
  unfold decimal. destruct z as [|p|p]; cbn [Z.to_int NilZero.string_of_int].
  - reflexivity.
  - rewrite string_of_pos, parseInt_digits by apply DecimalPos.Unsigned.to_uint_nonnil.
    now rewrite uint_value_to_uint.
  - rewrite string_of_pos. unfold parseInt.
    change (ParseInt.trim_start (String "-" ?s)) with (String "-" s).
    cbv beta iota.
    rewrite digits_string_of_uint_start by apply DecimalPos.Unsigned.to_uint_nonnil.
    rewrite uint_value_to_uint. reflexivity.
Qed.

Lemma of_Z_small (z : Z) : 0 <= z < two53 -> Double.of_Z z = Finite z.
Proof.
  intros H. destruct z as [|p|p]; [reflexivity| |lia].
  unfold Double.of_Z. now rewrite round_pos_small.
Qed.

(** An identifier below [2^53] written in decimal is transmitted as
    written. *)
Lemma JSON_stringify_parseInt_decimal (n : Z) :
  0 <= n < two53 -> JSON_stringify (JNumber (parseInt (decimal n))) = decimal n.
Proof.
  intros H. rewrite parseInt_decimal, of_Z_small by exact H.
  cbn [JSON_stringify]. now apply Number_toString_small.
Qed.

(** ** Base64 *)

Module Base64Facts.
Import Base64.










End Base64Facts.

(** ** The built-ins on known values *)

Example base64_rfc4648 :
  map Base64.encode ["f"; "fo"; "foo"; "foob"; "fooba"; "foobar"]
  = ["Zg=="; "Zm8="; "Zm9v"; "Zm9vYg=="; "Zm9vYmE="; "Zm9vYmFy"].
Proof. reflexivity. Qed.

Example parseInt_values :
  map parseInt ["42"; "  -42abc"; "+7.9"; "0x10"; "-0"; "abc"; EmptyString; "- 4"; "4 2"]
  = [Finite 42; Finite (-42); Finite 7; Finite 0; Finite 0; NaN; NaN; NaN; Finite 4].
Proof. reflexivity. Qed.

Example parseInt_rounds :
  map parseInt ["9007199254740993"; "9007199254740995"; "18446744073709551616"]
  = [Finite 9007199254740992; Finite 9007199254740996; Finite 18446744073709551616].
Proof. vm_compute. reflexivity. Qed.

Example parseInt_overflows :
  Double.of_Z (2 ^ 1024 - 2 ^ 970 - 1) = Finite (2 ^ 1024 - 2 ^ 971) /\
  Double.of_Z (2 ^ 1024 - 2 ^ 970) = Infinity false.
Proof. split; vm_compute; reflexivity. Qed.

Example Number_toString_values :
  map (fun z => Number_toString (Double.of_Z z))
    [0; 42; -42; 2 ^ 53 + 1; 2 ^ 64; 10 ^ 21 - 100000; 10 ^ 21; 10 ^ 23;
     -123456789012345678901234567890; 2 ^ 1024 - 2 ^ 971]
  = ["0"; "42"; "-42"; "9007199254740992"; "18446744073709552000";
     "999999999999999900000"; "1e+21"; "1e+23"; "-1.2345678901234568e+29";
     "1.7976931348623157e+308"].
Proof. vm_compute. reflexivity. Qed.

Example JSON_stringify_numbers :
  map (fun x => JSON_stringify (JNumber x)) [Finite 42; NaN; Infinity false; Infinity true]
  = ["42"; "null"; "null"; "null"].
Proof. reflexivity. Qed.

(** ** The request body *)

Lemma append_assoc (s t u : string) : (s ++ t) ++ u = s ++ t ++ u.
Proof. induction s as [|c s IH]; simpl; [reflexivity | now rewrite IH]. Qed.

Lemma stringify_pipelines (b : bool) (x : Number) :
  JSON_stringify
    (JObject [ ("pipelines",
                JArray [ JObject [ ("authorized", JBoolean b); ("id", JNumber x) ] ]) ])
  = pipelines_body (if b then "true" else "false") (JSON_stringify (JNumber x)).
Proof.
  unfold pipelines_body.
  generalize (eq_refl (JSON_stringify (JNumber x))).
  generalize (JSON_stringify (JNumber x)) at 1 3. intros s Hs.
  cbn [JSON_stringify map fst snd].
  change (match x with Finite z => Number_toString (Finite z) | _ => "null" end)
    with (JSON_stringify (JNumber x)).
  rewrite <- Hs. clear Hs.
  destruct b; cbn; rewrite !append_assoc; reflexivity.
Qed.

(** ** The claims *)

Section Claims.

Variable integrations : ScmIntegrationRegistry.
Variable fromIntegrations : ScmIntegrationRegistry -> AzureDevOpsCredentialsProvider.
Variable fetch : Request.t -> FetchResult.

Local Abbreviation run := (handler integrations fromIntegrations fetch).

(** Every run is one of the five outcomes. *)
Lemma handler_outcome (input : Input.t) :
  outcome integrations fromIntegrations fetch input (run input).
Proof.
  unfold handler.
  change (nullish (Input.server input) "dev.azure.com") with (resolved_host input).
  change (option_map ScmIntegration.type (byHost integrations (resolved_host input)))
    with (integration_type integrations input).
  destruct (falsy (integration_type integrations input)) eqn:Hty.
  - now apply NoIntegration.
  - unfold await_getCredentials, bind at 1 2. cbn [trace result emit ret app].
    change ("https://" ++ resolved_host input ++ "/" ++ Input.organization input)
      with (base_url input).
    change (getCredentials (fromIntegrations integrations) (base_url input))
      with (credentials integrations fromIntegrations input).
    destruct (credentials integrations fromIntegrations input) as [c|] eqn:Hc;
      destruct (Input.token input) as [| |t] eqn:Ht; cbn [andb is_undefined];
      try (now apply NoCredentials); try (now apply NullToken).
    all: unfold bind at 1; cbn [trace result ret app].
    all: match goal with
         | |- context [Base64.encode ("PAT:" ++ ?tok)] =>
             assert (Htok : auth_token integrations fromIntegrations input = Some tok)
               by (unfold auth_token; rewrite Ht, ?Hc; reflexivity);
             destruct (fetch (permit_request input tok)) as [e|resp] eqn:Hf;
             [ pose proof (Rejected integrations fromIntegrations fetch input
                             tok e Hty Htok Hf) as H
             | pose proof (Responded integrations fromIntegrations fetch input
                             tok resp Hty Htok Hf) as H ]
         end.
    all: unfold permit_request, resolved_apiVersion, intent, report in H, Hf.
    all: unfold await_fetch, logger_info, logger_error, bind, emit, throw, ret.
    all: cbn [trace result app]; rewrite Hf; cbn [trace result app].
    all: destruct (Input.authorized input); try exact H.
    all: destruct (Response.ok resp); exact H.
Qed.

(** A run sends at most one request, and which one. *)
Lemma requests_run (input : Input.t) (r : Request.t) :
  In r (requests (trace (run input))) ->
  exists token,
    falsy (integration_type integrations input) = false /\
    auth_token integrations fromIntegrations input = Some token /\
    r = permit_request input token /\
    requests (trace (run input)) = [r].
Proof.
  intros Hin. pose proof (handler_outcome input) as H.
  destruct H as [| | |token f Hty Htok Hf|token resp Hty Htok Hf];
    unfold intent, report in *; try destruct (Response.ok resp);
    cbn [trace requests In] in *; try contradiction.
  all: destruct Hin as [<-|[]]; exists token; repeat split; assumption.
Qed.

(** [C1] Every request that is sent carries the body
    [{"pipelines":[{"authorized":a,"id":i}]}], where [a] is the
    [authorized] flag and [i] the JSON text of [parseInt(pipelineId, 10)];
    that text is the identifier itself when it is written in decimal and
    is below [2^53], and for [authorized = true] and [pipelineId = "42"]
    the body is [{"pipelines":[{"authorized":true,"id":42}]}]. *)
Theorem C1_request_body (input : Input.t) (r : Request.t) :
  In r (requests (trace (run input))) ->
  Request.body r =
    pipelines_body (if Input.authorized input then "true" else "false")
      (JSON_stringify (JNumber (parseInt (Input.pipelineId input)))) /\
  (forall n, 0 <= n < 2 ^ 53 -> Input.pipelineId input = decimal n ->
     Request.body r =
       pipelines_body (if Input.authorized input then "true" else "false") (decimal n)) /\
  (Input.authorized input = true -> Input.pipelineId input = "42" ->
     Request.body r = pipelines_body "true" "42").
Proof.
  intros Hin. destruct (requests_run input r Hin) as (token & _ & _ & -> & _).
  cbn [permit_request Request.body]. rewrite stringify_pipelines.
  split; [reflexivity|]. split.
  - intros n Hn ->. now rewrite JSON_stringify_parseInt_decimal.
  - intros -> ->. reflexivity.
Qed.

(** [C2] Every request that is sent has the Authorization header
    [Basic base64("PAT:" + token)], where the token is the one the caller
    supplied when there is one, whatever the provider resolved, and the
    token of the resolved credential otherwise. *)
Theorem C2_authorization_header (input : Input.t) (r : Request.t) :
  In r (requests (trace (run input))) ->
  exists token,
    Request.header "Authorization" (Request.headers r)
      = Some ("Basic " ++ Base64.encode ("PAT:" ++ token)) /\
    match Input.token input with
    | defined t => token = t
    | _ => exists c,
             getCredentials (fromIntegrations integrations)
               ("https://" ++ nullish (Input.server input) "dev.azure.com" ++ "/"
                  ++ Input.organization input) = Some c /\
             token = AzureDevOpsCredential.token c
    end.
Proof.
  intros Hin. destruct (requests_run input r Hin) as (token & _ & Htok & -> & _).
  exists token. split; [reflexivity|].
  unfold auth_token in Htok.
  destruct (Input.token input) as [| |t].
  3: now injection Htok.
  all: destruct (credentials integrations fromIntegrations input) as [c|] eqn:Hc;
    [|discriminate]; injection Htok as <-; exists c; split; [exact Hc | reflexivity].
Qed.

(** [C3] When the registry has no integration for the resolved host,
    the run is rejected with an InputError whose message names the host,
    and nothing was done before: no credential lookup, no request. *)
Theorem C3_no_integration (input : Input.t) :
  byHost integrations (nullish (Input.server input) "dev.azure.com") = None ->
  exists message,
    result (run input) = inl (InputError message) /\
    includes message (nullish (Input.server input) "dev.azure.com") = true /\
    trace (run input) = [] /\
    requests (trace (run input)) = [].
Proof.
  intros Hnone. pose proof (handler_outcome input) as H.
  assert (Hty : falsy (integration_type integrations input) = true).
  { unfold integration_type, resolved_host. now rewrite Hnone. }
  destruct H as [_|Hf|Hf|? ? Hf|? ? Hf]; try congruence.
  eexists. split; [reflexivity|]. split; [|split; reflexivity].
  unfold resolved_host. find_substring.
Qed.

(** [C4] When the caller leaves the token out and the provider resolves
    no credential for [https://{host}/{organization}], the run is rejected
    with an InputError and no request is sent. *)
Theorem C4_no_credentials (input : Input.t) :
  Input.token input = undefined ->
  getCredentials (fromIntegrations integrations)
    ("https://" ++ nullish (Input.server input) "dev.azure.com" ++ "/"
       ++ Input.organization input) = None ->
  (exists message, result (run input) = inl (InputError message)) /\
  requests (trace (run input)) = [] /\
  (falsy (integration_type integrations input) = false ->
   result (run input) =
     inl (InputError
            ("No credentials provided https://"
               ++ nullish (Input.server input) "dev.azure.com" ++ "/"
               ++ Input.organization input
               ++ ", please check your integrations config"))).
Proof.
  intros Htok Hcred.
  pose proof (handler_outcome input) as H.
  assert (Hauth : auth_token integrations fromIntegrations input = None).
  { unfold auth_token, credentials, base_url, resolved_host.
    now rewrite Htok, Hcred. }
  destruct H as [Hty|_ _ _|_ _ Hnull|? ? _ Hsome|? ? _ Hsome]; try congruence.
  - split; [eexists; reflexivity|]. split; [reflexivity|]. congruence.
  - split; [eexists; reflexivity|]. split; [reflexivity|]. intros _.
    cbn [result]. unfold base_url, resolved_host. cbn [append].
    rewrite !append_assoc. reflexivity.
Qed.

(** [C5] Whenever the transport answers, the run is fulfilled, whatever
    the status: a successful answer is reported by an info line, an
    unsuccessful one by an error line that contains the status code, in
    decimal for every code below [2^53]. *)
Theorem C5_response_is_logged (input : Input.t) (r : Request.t) (response : Response.t) :
  In r (requests (trace (run input))) ->
  fetch r = inr response ->
  result (run input) = inr tt /\
  (if Response.ok response
   then In (LoggerInfo "Successfully changed the Azure pipeline permissions.")
          (trace (run input))
   else exists line,
          In (LoggerError line) (trace (run input)) /\
          line = "Failed to change the Azure pipeline permissions. Status code "
                   ++ Number_toString (Double.of_Z (Z.of_N (Response.status response)))
                   ++ "." /\
          includes line
            (Number_toString (Double.of_Z (Z.of_N (Response.status response)))) = true /\
          (Z.of_N (Response.status response) < 2 ^ 53 ->
           includes line (decimal (Z.of_N (Response.status response))) = true)).
Proof.
  intros Hin Hresp. destruct (requests_run input r Hin) as (token & Hty & Htok & -> & _).
  pose proof (handler_outcome input) as H.
  destruct H as [Hty'|_ Hc Ht|_ Hc Ht|token' f _ Htok' Hf|token' resp _ Htok' Hf];
    try congruence.
  1, 2: unfold auth_token in Htok; rewrite Ht, Hc in Htok; discriminate.
  rewrite Htok in Htok'. injection Htok' as <-.
  rewrite Hresp in Hf. injection Hf as <-.
  split; [reflexivity|]. cbn [trace]. unfold report.
  destruct (Response.ok response).
  - right. right. right. left. reflexivity.
  - eexists. split; [right; right; right; left; reflexivity|].
    split; [reflexivity|].
    assert (Hinc : forall s, includes
              ("Failed to change the Azure pipeline permissions. Status code " ++ s ++ ".")
              s = true) by (intros s; find_substring).
    split; [apply Hinc|].
    intros Hsmall. rewrite of_Z_small by (unfold two53; lia).
    rewrite Number_toString_small by (unfold two53; lia). apply Hinc.
Qed.

(** [C6] Every request that is sent is a PATCH of
    [https://{host}/{organization}/{project}/_apis/pipelines/pipelinepermissions/{resourceType}/{resourceId}?api-version={apiVersion}]
    with the headers [Content-Type: application/json],
    [Accept: application/json] and [X-TFS-FedAuthRedirect: Suppress]. *)
Theorem C6_request_line (input : Input.t) (r : Request.t) :
  In r (requests (trace (run input))) ->
  Request.method r = "PATCH" /\
  Request.url r =
    "https://" ++ nullish (Input.server input) "dev.azure.com" ++ "/"
      ++ Input.organization input ++ "/" ++ Input.project input
      ++ "/_apis/pipelines/pipelinepermissions/" ++ Input.resourceType input ++ "/"
      ++ Input.resourceId input ++ "?api-version="
      ++ nullish (Input.permitsApiVersion input) "7.1-preview.1" /\
  Request.header "Content-Type" (Request.headers r) = Some "application/json" /\
  Request.header "Accept" (Request.headers r) = Some "application/json" /\
  Request.header "X-TFS-FedAuthRedirect" (Request.headers r) = Some "Suppress".
Proof.
  intros Hin. destruct (requests_run input r Hin) as (token & _ & _ & -> & _).
  repeat split.
Qed.

(** [C7] When [server] and [permitsApiVersion] are left out, the URL of
    the request contains [dev.azure.com] and [api-version=7.1-preview.1]:
    it starts with [https://dev.azure.com/] and ends with
    [?api-version=7.1-preview.1]. *)
Theorem C7_default_host_and_version (input : Input.t) (r : Request.t) :
  Input.server input = undefined ->
  Input.permitsApiVersion input = undefined ->
  In r (requests (trace (run input))) ->
  includes (Request.url r) "dev.azure.com" = true /\
  includes (Request.url r) "api-version=7.1-preview.1" = true /\
  Request.url r =
    "https://dev.azure.com/" ++ Input.organization input ++ "/" ++ Input.project input
      ++ "/_apis/pipelines/pipelinepermissions/" ++ Input.resourceType input ++ "/"
      ++ Input.resourceId input ++ "?api-version=7.1-preview.1".
Proof.
  intros Hs Hv Hin. destruct (requests_run input r Hin) as (token & _ & _ & -> & _).
  cbn [permit_request Request.url]. unfold resolved_host, resolved_apiVersion.
  rewrite Hs, Hv. cbn [nullish].
  split; [find_substring|]. split; [find_substring|reflexivity].
Qed.

(** [C8, as amended] A [pipelineId] that [parseInt] reads as NaN stops
    nothing: once the integration and a token are found the PATCH is sent,
    the run ends as the transport decides, and the [id] of the body is
    [null], the JSON text of NaN. *)
Theorem C8_nan_is_sent_as_null (input : Input.t) (token : string) :
  parseInt (Input.pipelineId input) = NaN ->
  falsy (integration_type integrations input) = false ->
  auth_token integrations fromIntegrations input = Some token ->
  exists r,
    requests (trace (run input)) = [r] /\
    Request.method r = "PATCH" /\
    Request.body r =
      pipelines_body (if Input.authorized input then "true" else "false") "null" /\
    includes (Request.body r) "NaN" = false /\
    result (run input) =
      match fetch r with
      | inl f => inl (rejection f)
      | inr _ => inr tt
      end.
Proof.
  intros Hnan Hty Htok.
  pose proof (handler_outcome input) as H.
  assert (Hbody : forall t, Request.body (permit_request input t) =
            pipelines_body (if Input.authorized input then "true" else "false") "null").
  { intros t. cbn [permit_request Request.body].
    now rewrite stringify_pipelines, Hnan. }
  destruct H as [Hty'|_ Hc Ht|_ Hc Ht|token' f _ Htok' Hf|token' resp _ Htok' Hf];
    try congruence.
  1, 2: unfold auth_token in Htok; rewrite Ht, Hc in Htok; discriminate.
  all: exists (permit_request input token'); cbn [trace result]; rewrite Hf.
  all: unfold intent, report; try destruct (Response.ok resp); cbn [requests].
  all: rewrite Hbody; repeat split; destruct (Input.authorized input); reflexivity.
Qed.

(** [C9] The rejection for missing credentials happens only when the
    caller supplied no token and the provider resolved no credential; a
    run whose caller supplied a token never ends with it. *)
Theorem C9_no_credentials_only_if_both_absent (input : Input.t) (message : string) :
  result (run input) = inl (InputError message) ->
  startsWith message "No credentials provided" = true ->
  Input.token input = undefined /\
  credentials integrations fromIntegrations input = None /\
  (forall t, Input.token input <> defined t).
Proof.
  intros Hres Hmsg.
  pose proof (handler_outcome input) as H.
  destruct H as [_|_ Hc Ht|_ Hc Ht|token f _ _ _|token resp _ _ _];
    cbn [result] in Hres.
  - injection Hres as <-. discriminate.
  - repeat split; try assumption. intros t. congruence.
  - discriminate.
  - destruct f; discriminate.
  - discriminate.
Qed.

(** [C10] The defaults stand in for [undefined] and [null] only; a
    supplied string is used as it is, the empty one too: an empty [server]
    gives a URL that starts with [https:///], not with
    [https://dev.azure.com/], and an empty [permitsApiVersion] one that
    ends with [api-version=]. *)
Theorem C10_defaults_only_for_nullish (input : Input.t) (r : Request.t) :
  In r (requests (trace (run input))) ->
  Request.url r =
    "https://"
      ++ match Input.server input with
         | undefined => "dev.azure.com"
         | null => "dev.azure.com"
         | defined s => s
         end
      ++ "/" ++ Input.organization input ++ "/" ++ Input.project input
      ++ "/_apis/pipelines/pipelinepermissions/" ++ Input.resourceType input ++ "/"
      ++ Input.resourceId input ++ "?api-version="
      ++ match Input.permitsApiVersion input with
         | undefined => "7.1-preview.1"
         | null => "7.1-preview.1"
         | defined v => v
         end /\
  (Input.server input = defined EmptyString ->
     startsWith (Request.url r) "https:///" = true /\
     startsWith (Request.url r) "https://dev.azure.com/" = false) /\
  (Input.permitsApiVersion input = defined EmptyString ->
     exists before, Request.url r = before ++ "?api-version=").
Proof.
  intros Hin. destruct (requests_run input r Hin) as (token & _ & _ & -> & _).
  cbn [permit_request Request.url]. unfold resolved_host, resolved_apiVersion.
  split; [|split].
  - destruct (Input.server input), (Input.permitsApiVersion input); reflexivity.
  - intros ->. split; reflexivity.
  - intros ->. cbn [nullish].
    exists ("https://" ++ nullish (Input.server input) "dev.azure.com" ++ "/"
              ++ Input.organization input ++ "/" ++ Input.project input
              ++ "/_apis/pipelines/pipelinepermissions/" ++ Input.resourceType input
              ++ "/" ++ Input.resourceId input).
    rewrite !append_assoc. reflexivity.
Qed.

End Claims.

(** ** The claims on the sample installation *)

Lemma sample_run :
  handler Sample.integrations Sample.with_credential (Sample.responds 200) Sample.input
  = {| trace :=
         [ GetCredentials "https://dev.azure.com/org";
           LoggerInfo "Authorizing Azure pipeline with ID 42 for endpoint with ID 1234.";
           Fetch Sample.request;
           LoggerInfo "Successfully changed the Azure pipeline permissions." ];
       result := inr tt |}.
Proof. vm_compute. reflexivity. Qed.

Lemma C1_request_body_witness :
  In Sample.request
    (requests (trace (handler Sample.integrations Sample.with_credential
                        (Sample.responds 200) Sample.input))) /\
  Request.body Sample.request = pipelines_body "true" "42".
Proof.
  assert (H : In Sample.request
            (requests (trace (handler Sample.integrations Sample.with_credential
                                (Sample.responds 200) Sample.input))))
    by (vm_compute; left; reflexivity).
  split; [exact H|].
  apply (C1_request_body Sample.integrations Sample.with_credential (Sample.responds 200)
           Sample.input Sample.request H); reflexivity.
Defined.

Lemma C2_authorization_header_witness :
  In Sample.request
    (requests (trace (handler Sample.integrations Sample.with_credential
                        (Sample.responds 200) Sample.input))) /\
  exists token,
    Request.header "Authorization" (Request.headers Sample.request)
      = Some ("Basic " ++ Base64.encode ("PAT:" ++ token)) /\
    token = "secret".
Proof.
  assert (H : In Sample.request
            (requests (trace (handler Sample.integrations Sample.with_credential
                                (Sample.responds 200) Sample.input))))
    by (vm_compute; left; reflexivity).
  split; [exact H|].
  exact (C2_authorization_header Sample.integrations Sample.with_credential
           (Sample.responds 200) Sample.input Sample.request H).
Defined.

Lemma C3_no_integration_witness :
  byHost Sample.integrations "tfs.example.com" = None /\
  exists message,
    result (handler Sample.integrations Sample.with_credential (Sample.responds 200)
              (Sample.with_server (defined "tfs.example.com") undefined Sample.input))
      = inl (InputError message) /\
    includes message "tfs.example.com" = true /\
    trace (handler Sample.integrations Sample.with_credential (Sample.responds 200)
             (Sample.with_server (defined "tfs.example.com") undefined Sample.input)) = [] /\
    requests
      (trace (handler Sample.integrations Sample.with_credential (Sample.responds 200)
                (Sample.with_server (defined "tfs.example.com") undefined Sample.input))) = [].
Proof.
  split; [reflexivity|].
  apply (C3_no_integration Sample.integrations Sample.with_credential (Sample.responds 200)
           (Sample.with_server (defined "tfs.example.com") undefined Sample.input)).
  reflexivity.
Defined.

Lemma C4_no_credentials_witness :
  Input.token (Sample.with_token undefined Sample.input) = undefined /\
  getCredentials (Sample.without_credential Sample.integrations)
    "https://dev.azure.com/org" = None /\
  result (handler Sample.integrations Sample.without_credential (Sample.responds 200)
            (Sample.with_token undefined Sample.input))
    = inl (InputError
             "No credentials provided https://dev.azure.com/org, please check your integrations config") /\
  requests
    (trace (handler Sample.integrations Sample.without_credential (Sample.responds 200)
              (Sample.with_token undefined Sample.input))) = [].
Proof.
  split; [reflexivity|]. split; [reflexivity|].
  destruct (C4_no_credentials Sample.integrations Sample.without_credential
              (Sample.responds 200) (Sample.with_token undefined Sample.input)
              eq_refl eq_refl) as [_ [Hnone Hmessage]].
  split; [exact (Hmessage eq_refl) | exact Hnone].
Defined.

Lemma C5_response_is_logged_witness :
  In Sample.request
    (requests (trace (handler Sample.integrations Sample.with_credential
                        (Sample.responds 403) Sample.input))) /\
  Sample.responds 403 Sample.request
    = inr {| Response.ok := false; Response.status := 403 |} /\
  result (handler Sample.integrations Sample.with_credential (Sample.responds 403)
            Sample.input) = inr tt /\
  exists line,
    In (LoggerError line)
      (trace (handler Sample.integrations Sample.with_credential (Sample.responds 403)
                Sample.input)) /\
    line = "Failed to change the Azure pipeline permissions. Status code 403." /\
    includes line "403" = true.
Proof.
  assert (H : In Sample.request
            (requests (trace (handler Sample.integrations Sample.with_credential
                                (Sample.responds 403) Sample.input))))
    by (vm_compute; left; reflexivity).
  split; [exact H|]. split; [reflexivity|].
  destruct (C5_response_is_logged Sample.integrations Sample.with_credential
              (Sample.responds 403) Sample.input Sample.request
              {| Response.ok := false; Response.status := 403 |} H eq_refl)
    as [Hres (line & Hline & Heq & Hinc & _)].
  split; [exact Hres|]. exists line. split; [exact Hline|].
  split; [exact Heq|]. exact Hinc.
Defined.

Lemma C6_request_line_witness :
  In Sample.request
    (requests (trace (handler Sample.integrations Sample.with_credential
                        (Sample.responds 200) Sample.input))) /\
  Request.method Sample.request = "PATCH" /\
  Request.url Sample.request =
    "https://dev.azure.com/org/proj/_apis/pipelines/pipelinepermissions/endpoint/1234?api-version=7.1-preview.1" /\
  Request.header "Content-Type" (Request.headers Sample.request) = Some "application/json" /\
  Request.header "Accept" (Request.headers Sample.request) = Some "application/json" /\
  Request.header "X-TFS-FedAuthRedirect" (Request.headers Sample.request) = Some "Suppress".
Proof.
  assert (H : In Sample.request
            (requests (trace (handler Sample.integrations Sample.with_credential
                                (Sample.responds 200) Sample.input))))
    by (vm_compute; left; reflexivity).
  split; [exact H|].
  exact (C6_request_line Sample.integrations Sample.with_credential (Sample.responds 200)
           Sample.input Sample.request H).
Defined.

Lemma C7_default_host_and_version_witness :
  Input.server Sample.input = undefined /\
  Input.permitsApiVersion Sample.input = undefined /\
  In Sample.request
    (requests (trace (handler Sample.integrations Sample.with_credential
                        (Sample.responds 200) Sample.input))) /\
  includes (Request.url Sample.request) "dev.azure.com" = true /\
  includes (Request.url Sample.request) "api-version=7.1-preview.1" = true.
Proof.
  assert (H : In Sample.request
            (requests (trace (handler Sample.integrations Sample.with_credential
                                (Sample.responds 200) Sample.input))))
    by (vm_compute; left; reflexivity).
  split; [reflexivity|]. split; [reflexivity|]. split; [exact H|].
  destruct (C7_default_host_and_version Sample.integrations Sample.with_credential
              (Sample.responds 200) Sample.input Sample.request eq_refl eq_refl H)
    as [Hhost [Hversion _]].
  split; [exact Hhost | exact Hversion].
Defined.

(** [C8, as stated] does not hold: for [pipelineId = "abc"] the parse is
    NaN, the PATCH is sent, and the body has [null], not [NaN], as [id]. *)
Lemma C8_nan_is_not_in_the_body :
  parseInt "abc" = NaN /\
  exists r,
    requests (trace (handler Sample.integrations Sample.with_credential
                       (Sample.responds 200)
                       (Sample.with_pipelineId "abc" Sample.input))) = [r] /\
    Request.body r = pipelines_body "true" "null" /\
    Request.body r <> pipelines_body "true" (Number_toString NaN) /\
    includes (Request.body r) "NaN" = false.
Proof.
  split; [reflexivity|]. eexists. split; [vm_compute; reflexivity|].
  split; [reflexivity|]. split; [|reflexivity]. vm_compute. discriminate.
Qed.

Lemma C8_nan_is_sent_as_null_witness :
  parseInt (Input.pipelineId (Sample.with_pipelineId "abc" Sample.input)) = NaN /\
  falsy (integration_type Sample.integrations (Sample.with_pipelineId "abc" Sample.input))
    = false /\
  auth_token Sample.integrations Sample.with_credential
    (Sample.with_pipelineId "abc" Sample.input) = Some "secret" /\
  exists r,
    requests (trace (handler Sample.integrations Sample.with_credential
                       (Sample.responds 200)
                       (Sample.with_pipelineId "abc" Sample.input))) = [r] /\
    Request.method r = "PATCH" /\
    Request.body r = pipelines_body "true" "null" /\
    includes (Request.body r) "NaN" = false /\
    result (handler Sample.integrations Sample.with_credential (Sample.responds 200)
              (Sample.with_pipelineId "abc" Sample.input)) =
      match Sample.responds 200 r with
      | inl f => inl (rejection f)
      | inr _ => inr tt
      end.
Proof.
  split; [reflexivity|]. split; [reflexivity|]. split; [reflexivity|].
  exact (C8_nan_is_sent_as_null Sample.integrations Sample.with_credential
           (Sample.responds 200) (Sample.with_pipelineId "abc" Sample.input) "secret"
           eq_refl eq_refl eq_refl).
Defined.

Lemma C9_no_credentials_only_if_both_absent_witness :
  result (handler Sample.integrations Sample.without_credential (Sample.responds 200)
            (Sample.with_token undefined Sample.input))
    = inl (InputError
             "No credentials provided https://dev.azure.com/org, please check your integrations config") /\
  Input.token (Sample.with_token undefined Sample.input) = undefined /\
  credentials Sample.integrations Sample.without_credential
    (Sample.with_token undefined Sample.input) = None.
Proof.
  split; [reflexivity|].
  destruct (C9_no_credentials_only_if_both_absent Sample.integrations
              Sample.without_credential (Sample.responds 200)
              (Sample.with_token undefined Sample.input)
              "No credentials provided https://dev.azure.com/org, please check your integrations config"
              eq_refl eq_refl) as [Ht [Hc _]].
  split; [exact Ht | exact Hc].
Defined.

Lemma C10_defaults_only_for_nullish_witness :
  exists r,
    In r (requests (trace (handler Sample.any_host Sample.with_credential
                             (Sample.responds 200)
                             (Sample.with_server (defined EmptyString)
                                (defined EmptyString) Sample.input)))) /\
    Request.url r =
      "https:///org/proj/_apis/pipelines/pipelinepermissions/endpoint/1234?api-version=" /\
    startsWith (Request.url r) "https:///" = true /\
    startsWith (Request.url r) "https://dev.azure.com/" = false.
Proof.
  eexists.
  assert (H : In _ (requests (trace (handler Sample.any_host Sample.with_credential
                             (Sample.responds 200)
                             (Sample.with_server (defined EmptyString)
                                (defined EmptyString) Sample.input)))))
    by (vm_compute; left; reflexivity).
  split; [exact H|].
  destruct (C10_defaults_only_for_nullish Sample.any_host Sample.with_credential
              (Sample.responds 200)
              (Sample.with_server (defined EmptyString) (defined EmptyString) Sample.input)
              _ H) as [Hurl [Hserver _]].
  split; [exact Hurl|]. exact (Hserver eq_refl).
Defined.

(** * Further properties of the handler *)

(** ** What [parseInt] makes of an identifier *)







(** From [2^1024] on, an integer has no double: it becomes Infinity. *)
Lemma round_pos_overflow (m : Z) :
  2 ^ 1024 <= m -> Double.round_pos m = None.
Proof.
  intros Hm. unfold Double.round_pos.
  assert (Hpos : 0 < m) by (pose proof (Z.pow_pos_nonneg 2 1024); lia).
  assert (Hl : 1024 <= Z.log2 m) by (apply Z.log2_le_pow2; [lia | exact Hm]).
  destruct (Z.leb_spec (Z.log2 m + 1) 53) as [|_]; [lia|].
  set (sh := Z.log2 m + 1 - 53).
  assert (Hsh : 972 <= sh) by (unfold sh; lia).
  set (q := Z.shiftr m sh).
  assert (Hq : 2 ^ 52 <= q).
  { unfold q. rewrite Z.shiftr_div_pow2 by lia.
    apply Z.div_le_lower_bound; [apply Z.pow_pos_nonneg; lia|].
    rewrite <- Z.pow_add_r by lia.
    replace (sh + 52) with (Z.log2 m) by (unfold sh; lia).
    apply Z.log2_spec. exact Hpos. }
  match goal with |- context [if ?c then q + 1 else q] =>
    set (q' := if c then q + 1 else q) end.
  assert (Hq' : 2 ^ 52 <= q') by (unfold q'; destruct (_ || _); lia).
  destruct (Z.leb_spec (Z.shiftl 1 1024) (Z.shiftl q' sh)) as [_|Hlt]; [reflexivity|].
  exfalso. revert Hlt. rewrite Z.shiftl_1_l, Z.shiftl_mul_pow2 by lia.
  apply Z.le_ngt.
  replace 1024 with (52 + 972) by reflexivity. rewrite Z.pow_add_r by lia.
  apply Z.mul_le_mono_nonneg;
    first [ exact Hq' | apply Z.pow_le_mono_r; lia | apply Z.pow_nonneg; lia ].
Qed.

(** ** The order of a run, and what a run never does *)

Section More.

Variable integrations : ScmIntegrationRegistry.
Variable fromIntegrations : ScmIntegrationRegistry -> AzureDevOpsCredentialsProvider.
Variable fetch : Request.t -> FetchResult.

Local Abbreviation run := (handler integrations fromIntegrations fetch).

(** [X1] A run that sends a request has first asked the provider about
    [https://{host}/{organization}] and then logged one info line,
    [Authorizing ...] when [authorized] is true and [Unauthorizing ...]
    otherwise; at most the line about the answer follows the request. *)
Theorem lookup_intent_request_in_order (input : Input.t) (r : Request.t) :
  In r (requests (trace (run input))) ->
  exists rest,
    trace (run input) =
      GetCredentials ("https://" ++ nullish (Input.server input) "dev.azure.com" ++ "/"
                        ++ Input.organization input)
      :: LoggerInfo ((if Input.authorized input then "Authorizing" else "Unauthorizing")
                       ++ " Azure pipeline with ID " ++ Input.pipelineId input ++ " for "
                       ++ Input.resourceType input ++ " with ID "
                       ++ Input.resourceId input ++ ".")
      :: Fetch r :: rest /\
    (List.length rest <= 1)%nat /\
    requests rest = [] /\
    lookups rest = [].
Proof.
  intros Hin. destruct (requests_run _ _ _ input r Hin) as (token & _ & Htok & -> & _).
  pose proof (handler_outcome integrations fromIntegrations fetch input) as H.
  destruct H as [| | |token' f _ Htok' _|token' resp _ Htok' _];
    cbn [trace requests In] in Hin; try contradiction.
  - assert (token' = token) as -> by congruence.
    exists []. repeat split. cbn. lia.
  - assert (token' = token) as -> by congruence.
    exists [report resp]. split; [reflexivity|].
    unfold report. destruct (Response.ok resp); repeat split; cbn; lia.
Qed.

(** [X2] A run sends at most one request and asks the provider at most
    once, and it sends no request without having asked. *)
Theorem at_most_one_request (input : Input.t) :
  (List.length (requests (trace (run input))) <= 1)%nat /\
  (List.length (lookups (trace (run input))) <= 1)%nat /\
  (List.length (requests (trace (run input))) <= List.length (lookups (trace (run input))))%nat.
Proof.
  pose proof (handler_outcome integrations fromIntegrations fetch input) as H.
  destruct H as [| | |token f _ _ _|token resp _ _ _]; unfold intent, report;
    try destruct (Response.ok resp); cbn; lia.
Qed.

(** [X3] When the transport rejects, the run is rejected with that very
    failure; the request is the last thing the run did, and the only line
    logged is the one that announced it. *)
Theorem transport_failure_propagates (input : Input.t) (r : Request.t) (f : FetchFailure) :
  In r (requests (trace (run input))) ->
  fetch r = inl f ->
  result (run input) = inl (rejection f) /\
  (exists before, trace (run input) = (before ++ [Fetch r])%list) /\
  logged (trace (run input)) =
    [ LoggerInfo ((if Input.authorized input then "Authorizing" else "Unauthorizing")
                    ++ " Azure pipeline with ID " ++ Input.pipelineId input ++ " for "
                    ++ Input.resourceType input ++ " with ID "
                    ++ Input.resourceId input ++ ".") ].
Proof.
  intros Hin Hf. destruct (requests_run _ _ _ input r Hin) as (token & _ & Htok & -> & _).
  pose proof (handler_outcome integrations fromIntegrations fetch input) as H.
  destruct H as [| | |token' f' _ Htok' Hf'|token' resp _ Htok' Hf'];
    cbn [trace requests In] in Hin; try contradiction.
  - assert (token' = token) as -> by congruence.
    assert (f' = f) as -> by congruence.
    split; [reflexivity|]. split; [|reflexivity].
    now exists [GetCredentials (base_url input); intent input].
  - assert (token' = token) as -> by congruence. congruence.
Qed.

(** [X4] A run is fulfilled exactly when it sent its request and the
    transport answered it, with whatever status. *)
Theorem fulfilled_iff_answered (input : Input.t) :
  result (run input) = inr tt <->
  exists r response, In r (requests (trace (run input))) /\ fetch r = inr response.
Proof.
  pose proof (handler_outcome integrations fromIntegrations fetch input) as H.
  destruct H as [| | |token f _ Htok Hf|token resp _ Htok Hf]; cbn [result trace].
  1-3: split; [discriminate | intros (r & response & [] & _)].
  - split; [destruct f; discriminate|].
    intros (r & response & Hin & Hr). unfold intent in Hin. cbn in Hin.
    destruct Hin as [<-|[]]. congruence.
  - split; [intros _|reflexivity].
    exists (permit_request input token), resp. split; [|exact Hf].
    unfold intent, report. destruct (Response.ok resp); cbn; now left.
Qed.

(** [X5] The run is rejected with the missing-integration InputError
    exactly when the registry knows no integration for the host or knows
    one whose type is the empty string; nothing has happened by then. *)
Theorem no_integration_iff (input : Input.t) :
  ((byHost integrations (nullish (Input.server input) "dev.azure.com") = None \/
    exists i, byHost integrations (nullish (Input.server input) "dev.azure.com") = Some i /\
              ScmIntegration.type i = EmptyString)
   <->
   result (run input) =
     inl (InputError ("No matching integration configuration for host "
                        ++ nullish (Input.server input) "dev.azure.com"
                        ++ ", please check your integrations config"))) /\
  (result (run input) =
     inl (InputError ("No matching integration configuration for host "
                        ++ nullish (Input.server input) "dev.azure.com"
                        ++ ", please check your integrations config")) ->
   trace (run input) = []).
Proof.
  assert (Hfalsy : falsy (integration_type integrations input) = true <->
            (byHost integrations (nullish (Input.server input) "dev.azure.com") = None \/
             exists i, byHost integrations (nullish (Input.server input) "dev.azure.com")
                       = Some i /\ ScmIntegration.type i = EmptyString)).
  { unfold integration_type, resolved_host.
    destruct (byHost integrations _) as [i|]; cbn.
    - destruct (ScmIntegration.type i) eqn:E; split; try discriminate.
      + intros _. right. now exists i.
      + reflexivity.
      + intros [H|(i' & [= <-] & H)]; congruence.
    - split; [now left | reflexivity]. }
  pose proof (handler_outcome integrations fromIntegrations fetch input) as H.
  destruct H as [Hty|Hty _ _|Hty _ _|token f Hty _ _|token resp Hty _ _]; cbn [result trace].
  - split; [|reflexivity]. split; [reflexivity|]. intros _. now apply Hfalsy.
  - split; [|discriminate]. split; [|discriminate].
    intros H. apply Hfalsy in H. congruence.
  - split; [|discriminate]. split; [|discriminate].
    intros H. apply Hfalsy in H. congruence.
  - split; [|destruct f; discriminate]. split; [|destruct f; discriminate].
    intros H. apply Hfalsy in H. congruence.
  - split; [|discriminate]. split; [|discriminate].
    intros H. apply Hfalsy in H. congruence.
Qed.

(** [X6] A token that is [null] is not caught by the check for missing
    credentials, which looks for [undefined]: when the provider resolves
    nothing either, the run ends with a TypeError after the lookup, and no
    request is sent. *)
Theorem null_token_without_credential (input : Input.t) (i : ScmIntegration.t) :
  byHost integrations (nullish (Input.server input) "dev.azure.com") = Some i ->
  ScmIntegration.type i <> EmptyString ->
  Input.token input = null ->
  getCredentials (fromIntegrations integrations)
    ("https://" ++ nullish (Input.server input) "dev.azure.com" ++ "/"
       ++ Input.organization input) = None ->
  (exists message, result (run input) = inl (TypeError message)) /\
  trace (run input) =
    [ GetCredentials ("https://" ++ nullish (Input.server input) "dev.azure.com" ++ "/"
                        ++ Input.organization input) ] /\
  requests (trace (run input)) = [].
Proof.
  intros Hi Hty Htok Hcred.
  assert (Hfalsy : falsy (integration_type integrations input) = false).
  { unfold integration_type, resolved_host. rewrite Hi. cbn.
    destruct (ScmIntegration.type i); [contradiction | reflexivity]. }
  assert (Hauth : auth_token integrations fromIntegrations input = None).
  { unfold auth_token, credentials, base_url, resolved_host. now rewrite Htok, Hcred. }
  pose proof (handler_outcome integrations fromIntegrations fetch input) as H.
  destruct H as [|_ _ Hundef| | |]; try congruence.
  split; [eexists; reflexivity|]. split; reflexivity.
Qed.

(** [X7] The token is not logged and does not decide how a run ends: two
    runs that differ only in the token the caller supplied log the same
    lines and end alike, provided the transport treats their requests
    alike. *)
Theorem token_is_not_logged (input : Input.t) (t1 t2 : string) :
  (forall r1 r2,
     In r1 (requests (trace (run (Sample.with_token (defined t1) input)))) ->
     In r2 (requests (trace (run (Sample.with_token (defined t2) input)))) ->
     fetch r1 = fetch r2) ->
  logged (trace (run (Sample.with_token (defined t1) input)))
    = logged (trace (run (Sample.with_token (defined t2) input))) /\
  result (run (Sample.with_token (defined t1) input))
    = result (run (Sample.with_token (defined t2) input)).
Proof.
  pose proof (handler_outcome integrations fromIntegrations fetch
                (Sample.with_token (defined t1) input)) as H1.
  pose proof (handler_outcome integrations fromIntegrations fetch
                (Sample.with_token (defined t2) input)) as H2.
  destruct H1 as [Hty1|_ _ Hu1|_ _ Hu1|k1 f1 Hty1 Hk1 Hf1|k1 resp1 Hty1 Hk1 Hf1];
    try discriminate Hu1;
    destruct H2 as [Hty2|_ _ Hu2|_ _ Hu2|k2 f2 Hty2 Hk2 Hf2|k2 resp2 Hty2 Hk2 Hf2];
    try discriminate Hu2;
    try (exfalso; clear - Hty1 Hty2; cbv in Hty1, Hty2; congruence).
  all: intros Hsame.
  1: split; reflexivity.
  all: assert (Hr : fetch (permit_request (Sample.with_token (defined t1) input) k1)
                    = fetch (permit_request (Sample.with_token (defined t2) input) k2))
         by (apply Hsame; unfold intent, report;
             repeat match goal with
                    | |- context [Response.ok ?r] => destruct (Response.ok r)
                    end;
             cbn; now left).
  all: rewrite Hf1, Hf2 in Hr; try discriminate Hr; injection Hr as ->.
  all: split; reflexivity.
Qed.



(** [X10] An identifier written in decimal that is [2^1024] or more has no
    Number: it is parsed to Infinity, and the body carries [null]. *)
Theorem overflowing_id_is_null (input : Input.t) (r : Request.t) (n : Z) :
  In r (requests (trace (run input))) ->
  2 ^ 1024 <= n ->
  Input.pipelineId input = decimal n ->
  parseInt (Input.pipelineId input) = Infinity false /\
  Request.body r =
    pipelines_body (if Input.authorized input then "true" else "false") "null".
Proof.
  intros Hin Hn Hid.
  destruct (requests_run _ _ _ input r Hin) as (token & _ & _ & -> & _).
  assert (Hparse : parseInt (Input.pipelineId input) = Infinity false).
  { rewrite Hid, parseInt_decimal.
    assert (0 < 2 ^ 1024) by (apply Z.pow_pos_nonneg; lia).
    destruct n as [|p|p]; try lia.
    unfold Double.of_Z. now rewrite round_pos_overflow. }
  split; [exact Hparse|].
  cbn [permit_request Request.body]. now rewrite stringify_pipelines, Hparse.
Qed.

(** [X11] Once the integration is found the provider is asked, first of
    all and exactly once, about [https://{host}/{organization}], whether or
    not the caller supplied a token. *)
Theorem credentials_are_always_looked_up (input : Input.t) (i : ScmIntegration.t) :
  byHost integrations (nullish (Input.server input) "dev.azure.com") = Some i ->
  ScmIntegration.type i <> EmptyString ->
  lookups (trace (run input)) =
    [ "https://" ++ nullish (Input.server input) "dev.azure.com" ++ "/"
        ++ Input.organization input ] /\
  exists rest,
    trace (run input) =
      GetCredentials ("https://" ++ nullish (Input.server input) "dev.azure.com" ++ "/"
                        ++ Input.organization input) :: rest.
Proof.
  intros Hi Hty.
  assert (Hfalsy : falsy (integration_type integrations input) = false).
  { unfold integration_type, resolved_host. rewrite Hi. cbn.
    destruct (ScmIntegration.type i); [contradiction | reflexivity]. }
  pose proof (handler_outcome integrations fromIntegrations fetch input) as H.
  destruct H as [| | |token f _ _ _|token resp _ _ _]; try congruence.
  all: unfold intent, report; try destruct (Response.ok resp).
  all: split; [reflexivity | eexists; reflexivity].
Qed.

(** [X12] An error line is logged exactly when the transport answered the
    request with a response that is not ok, and the line of success exactly
    when it answered with one that is. *)
Theorem outcome_line_iff (input : Input.t) :
  ((exists line, In (LoggerError line) (trace (run input))) <->
   exists r response,
     In r (requests (trace (run input))) /\ fetch r = inr response /\
     Response.ok response = false) /\
  (In (LoggerInfo "Successfully changed the Azure pipeline permissions.")
      (trace (run input)) <->
   exists r response,
     In r (requests (trace (run input))) /\ fetch r = inr response /\
     Response.ok response = true).
Proof.
  pose proof (handler_outcome integrations fromIntegrations fetch input) as H.
  destruct H as [| | |token f _ _ Hf|token resp _ _ Hf]; cbn [trace].
  1-3: split; split;
    [ intros (line & Hin); cbn in Hin; intuition discriminate
    | intros (r & response & [] & _)
    | cbn; intuition discriminate
    | intros (r & response & [] & _) ].
  - unfold intent. split; split.
    + intros (line & Hin). cbn in Hin. intuition discriminate.
    + intros (r & response & Hin & Hr & _). cbn in Hin.
      destruct Hin as [<-|[]]. congruence.
    + cbn. destruct (Input.authorized input); intuition discriminate.
    + intros (r & response & Hin & Hr & _). cbn in Hin.
      destruct Hin as [<-|[]]. congruence.
  - unfold intent, report. destruct (Response.ok resp) eqn:Hok; split; split.
    + intros (line & Hin). cbn in Hin. intuition discriminate.
    + intros (r & response & Hin & Hr & Hnok). cbn in Hin.
      destruct Hin as [<-|[]]. congruence.
    + intros _. exists (permit_request input token), resp.
      split; [cbn; now left|]. now split.
    + intros _. cbn. now (right; right; right; left).
    + intros _. exists (permit_request input token), resp.
      split; [cbn; now left|]. now split.
    + intros _. eexists. cbn. right. right. right. left. reflexivity.
    + cbn. destruct (Input.authorized input); intuition discriminate.
    + intros (r & response & Hin & Hr & Hisok). cbn in Hin.
      destruct Hin as [<-|[]]. congruence.
Qed.

(** [X14] The request goes where the credentials were asked for: its URL
    extends, by a slash and the rest of the path, the one URL the provider
    was asked about. *)
Theorem request_extends_lookup_url (input : Input.t) (r : Request.t) :
  In r (requests (trace (run input))) ->
  exists url,
    lookups (trace (run input)) = [url] /\
    startsWith (Request.url r) (url ++ "/") = true.
Proof.
  intros Hin. destruct (requests_run _ _ _ input r Hin) as (token & _ & _ & -> & _).
  exists (base_url input). split.
  - pose proof (handler_outcome integrations fromIntegrations fetch input) as H.
    destruct H as [| | |token' f _ _ _|token' resp _ _ _];
      cbn [trace requests In] in Hin; try contradiction.
    all: unfold intent, report; try destruct (Response.ok resp); reflexivity.
  - cbn [permit_request Request.url].
    replace ("https://" ++ resolved_host input ++ "/" ++ Input.organization input ++ "/"
               ++ Input.project input ++ "/_apis/pipelines/pipelinepermissions/"
               ++ Input.resourceType input ++ "/" ++ Input.resourceId input
               ++ "?api-version=" ++ resolved_apiVersion input)
      with ((base_url input ++ "/")
              ++ Input.project input ++ "/_apis/pipelines/pipelinepermissions/"
              ++ Input.resourceType input ++ "/" ++ Input.resourceId input
              ++ "?api-version=" ++ resolved_apiVersion input).
    + apply startsWith_app.
    + unfold base_url. rewrite !append_assoc. reflexivity.
Qed.

End More.

(** [X13] Of a resolved credential only the token is used, not its kind: a
    bearer credential and a personal access token with the same text lead
    to the same run, [Basic] header included. *)
Theorem credential_kind_is_ignored
    (integrations : ScmIntegrationRegistry)
    (from1 from2 : ScmIntegrationRegistry -> AzureDevOpsCredentialsProvider)
    (fetch : Request.t -> FetchResult) (input : Input.t) :
  (forall url,
     option_map AzureDevOpsCredential.token (getCredentials (from1 integrations) url)
     = option_map AzureDevOpsCredential.token (getCredentials (from2 integrations) url)) ->
  handler integrations from1 fetch input = handler integrations from2 fetch input.
Proof.
  intros Hsame. unfold handler.
  destruct (falsy _); [reflexivity|].
  unfold await_getCredentials, bind at 1 2 6 7. cbn [trace result emit ret app].
  match goal with
  | |- context [getCredentials (from1 integrations) ?u] => specialize (Hsame u)
  end.
  destruct (getCredentials (from1 integrations) _) as [c1|];
    destruct (getCredentials (from2 integrations) _) as [c2|];
    cbn [option_map] in Hsame; try discriminate Hsame.
  - injection Hsame as Htoken.
    destruct (Input.token input); cbn [andb is_undefined]; try rewrite Htoken; reflexivity.
  - reflexivity.
Qed.

(** ** The further properties on the sample installation *)

Lemma lookup_intent_request_in_order_witness :
  In Sample.request
    (requests (trace (handler Sample.integrations Sample.with_credential
                        (Sample.responds 200) Sample.input))) /\
  exists rest,
    trace (handler Sample.integrations Sample.with_credential (Sample.responds 200)
             Sample.input) =
      GetCredentials "https://dev.azure.com/org"
      :: LoggerInfo "Authorizing Azure pipeline with ID 42 for endpoint with ID 1234."
      :: Fetch Sample.request :: rest /\
    (List.length rest <= 1)%nat.
Proof.
  assert (H : In Sample.request
            (requests (trace (handler Sample.integrations Sample.with_credential
                                (Sample.responds 200) Sample.input))))
    by (vm_compute; left; reflexivity).
  split; [exact H|].
  destruct (lookup_intent_request_in_order Sample.integrations Sample.with_credential
              (Sample.responds 200) Sample.input Sample.request H)
    as (rest & Htrace & Hlength & _).
  exists rest. split; [exact Htrace | exact Hlength].
Defined.

Lemma transport_failure_propagates_witness :
  In Sample.request
    (requests (trace (handler Sample.integrations Sample.with_credential
                        Cases.refuses Sample.input))) /\
  Cases.refuses Sample.request = inl (SystemFailure "connect ECONNREFUSED") /\
  result (handler Sample.integrations Sample.with_credential Cases.refuses Sample.input)
    = inl (FetchError "connect ECONNREFUSED") /\
  logged (trace (handler Sample.integrations Sample.with_credential Cases.refuses
                   Sample.input))
    = [ LoggerInfo "Authorizing Azure pipeline with ID 42 for endpoint with ID 1234." ].
Proof.
  assert (H : In Sample.request
            (requests (trace (handler Sample.integrations Sample.with_credential
                                Cases.refuses Sample.input))))
    by (vm_compute; left; reflexivity).
  split; [exact H|]. split; [reflexivity|].
  destruct (transport_failure_propagates Sample.integrations Sample.with_credential
              Cases.refuses Sample.input Sample.request
              (SystemFailure "connect ECONNREFUSED") H eq_refl)
    as (Hresult & _ & Hlogged).
  split; [exact Hresult | exact Hlogged].
Defined.

Lemma null_token_without_credential_witness :
  byHost Sample.integrations "dev.azure.com" = Some Sample.azure /\
  ScmIntegration.type Sample.azure <> EmptyString /\
  Input.token (Sample.with_token null Sample.input) = null /\
  getCredentials (Sample.without_credential Sample.integrations)
    "https://dev.azure.com/org" = None /\
  (exists message,
     result (handler Sample.integrations Sample.without_credential (Sample.responds 200)
               (Sample.with_token null Sample.input)) = inl (TypeError message)) /\
  requests
    (trace (handler Sample.integrations Sample.without_credential (Sample.responds 200)
              (Sample.with_token null Sample.input))) = [].
Proof.
  assert (Htype : ScmIntegration.type Sample.azure <> EmptyString)
    by (intros H; discriminate H).
  split; [reflexivity|]. split; [exact Htype|]. split; [reflexivity|].
  split; [reflexivity|].
  destruct (null_token_without_credential Sample.integrations Sample.without_credential
              (Sample.responds 200) (Sample.with_token null Sample.input) Sample.azure
              eq_refl Htype eq_refl eq_refl) as (Hresult & _ & Hnone).
  split; [exact Hresult | exact Hnone].
Defined.

Lemma token_is_not_logged_witness :
  (forall r1 r2 : Request.t, Sample.responds 200 r1 = Sample.responds 200 r2) /\
  logged (trace (handler Sample.integrations Sample.with_credential (Sample.responds 200)
                   (Sample.with_token (defined "secret") Sample.input)))
    = logged (trace (handler Sample.integrations Sample.with_credential
                       (Sample.responds 200)
                       (Sample.with_token (defined "another") Sample.input))) /\
  result (handler Sample.integrations Sample.with_credential (Sample.responds 200)
            (Sample.with_token (defined "secret") Sample.input))
    = result (handler Sample.integrations Sample.with_credential (Sample.responds 200)
                (Sample.with_token (defined "another") Sample.input)).
Proof.
  split; [reflexivity|].
  exact (token_is_not_logged Sample.integrations Sample.with_credential
           (Sample.responds 200) Sample.input "secret" "another"
           (fun r1 r2 _ _ => eq_refl)).
Defined.



Lemma overflowing_id_is_null_witness :
  exists r,
    In r (requests (trace (handler Sample.integrations Sample.with_credential
                             (Sample.responds 200)
                             (Sample.with_pipelineId (decimal (2 ^ 1024)) Sample.input)))) /\
    2 ^ 1024 <= 2 ^ 1024 /\
    parseInt (decimal (2 ^ 1024)) = Infinity false /\
    Request.body r = pipelines_body "true" "null".
Proof.
  eexists.
  assert (H : In _ (requests (trace (handler Sample.integrations Sample.with_credential
                             (Sample.responds 200)
                             (Sample.with_pipelineId (decimal (2 ^ 1024)) Sample.input)))))
    by (vm_compute; left; reflexivity).
  split; [exact H|]. split; [apply Z.le_refl|].
  exact (overflowing_id_is_null Sample.integrations Sample.with_credential
           (Sample.responds 200)
           (Sample.with_pipelineId (decimal (2 ^ 1024)) Sample.input) _ (2 ^ 1024)
           H (Z.le_refl _) eq_refl).
Defined.

Lemma credentials_are_always_looked_up_witness :
  byHost Sample.integrations "dev.azure.com" = Some Sample.azure /\
  ScmIntegration.type Sample.azure <> EmptyString /\
  Input.token Sample.input = defined "secret" /\
  lookups (trace (handler Sample.integrations Sample.with_credential (Sample.responds 200)
                    Sample.input)) = [ "https://dev.azure.com/org" ].
Proof.
  assert (Htype : ScmIntegration.type Sample.azure <> EmptyString)
    by (intros H; discriminate H).
  split; [reflexivity|]. split; [exact Htype|]. split; [reflexivity|].
  destruct (credentials_are_always_looked_up Sample.integrations Sample.with_credential
              (Sample.responds 200) Sample.input Sample.azure eq_refl Htype)
    as [Hlookups _].
  exact Hlookups.
Defined.

Lemma credential_kind_is_ignored_witness :
  (forall url,
     option_map AzureDevOpsCredential.token
       (getCredentials (Sample.with_credential Sample.integrations) url)
     = option_map AzureDevOpsCredential.token
         (getCredentials (Cases.with_bearer Sample.integrations) url)) /\
  handler Sample.integrations Sample.with_credential (Sample.responds 200)
    (Sample.with_token undefined Sample.input)
  = handler Sample.integrations Cases.with_bearer (Sample.responds 200)
      (Sample.with_token undefined Sample.input).
Proof.
  split; [reflexivity|].
  exact (credential_kind_is_ignored Sample.integrations Sample.with_credential
           Cases.with_bearer (Sample.responds 200)
           (Sample.with_token undefined Sample.input) (fun _ => eq_refl)).
Defined.

Lemma request_extends_lookup_url_witness :
  In Sample.request
    (requests (trace (handler Sample.integrations Sample.with_credential
                        (Sample.responds 200) Sample.input))) /\
  lookups (trace (handler Sample.integrations Sample.with_credential (Sample.responds 200)
                    Sample.input)) = [ "https://dev.azure.com/org" ] /\
  startsWith (Request.url Sample.request) "https://dev.azure.com/org/" = true.
Proof.
  assert (H : In Sample.request
            (requests (trace (handler Sample.integrations Sample.with_credential
                                (Sample.responds 200) Sample.input))))
    by (vm_compute; left; reflexivity).
  split; [exact H|]. split; [reflexivity|].
  destruct (request_extends_lookup_url Sample.integrations Sample.with_credential
              (Sample.responds 200) Sample.input Sample.request H)
    as (url & Hlookups & Hstarts).
  injection Hlookups as <-. exact Hstarts.
Defined.
